(** * twirpotel: tracing interceptors for twirp servers and clients

    A shallow embedding of [twirpotel.go].  The packages the file imports
    (context, twirp, otel and its attribute, codes, semconv and trace
    packages) are external; each gets a small module holding the part of
    its interface the interceptor touches.  The code of the repository
    itself follows, function by function, with the names of the source. *)

From Stdlib Require Import String List Bool Arith ZArith Lia.
Import ListNotations.

Local Open Scope string_scope.
Local Open Scope list_scope.

(** ** External packages *)

(** go.opentelemetry.io/otel/attribute *)
Module attribute.

Definition Key := string.

(** A [Value] is a tagged union; the interceptor only builds string
    values, the other tags are kept so that "string-valued" says
    something. *)
Inductive Value :=
| BoolValue (b : bool)
| Int64Value (n : Z)
| StringValue (s : string).

Record KeyValue := KV { key : Key; value : Value }.

Definition AsString (v : Value) : string :=
  match v with
  | StringValue s => s
  | _ => ""
  end.

Definition isString (v : Value) : bool :=
  match v with
  | StringValue _ => true
  | _ => false
  end.

(** [k.String(s)] of a key. *)
Definition String (k : Key) (s : string) : KeyValue :=
  {| key := k; value := StringValue s |}.

End attribute.

(** go.opentelemetry.io/otel/codes *)
Module codes.

Inductive Code := Unset | Error | Ok.

End codes.

(** go.opentelemetry.io/otel/semconv/v1.10.0 *)
Module semconv.

Definition RPCSystemKey : attribute.Key := "rpc.system".
Definition RPCServiceKey : attribute.Key := "rpc.service".
Definition RPCMethodKey : attribute.Key := "rpc.method".

End semconv.

(** go.opentelemetry.io/otel/trace *)
Module trace.

Inductive SpanKind :=
| SpanKindUnspecified
| SpanKindInternal
| SpanKindServer
| SpanKindClient
| SpanKindProducer
| SpanKindConsumer.

(** A provider is known by its identity; [sampled] tells whether the
    spans it starts carry a valid span context (a no-op provider
    starts spans that do not). *)
Record TracerProvider := { providerID : nat; sampled : bool }.

Record Tracer := { provider : TracerProvider; instrumentation : string }.

(** [p.Tracer(name)] *)
Definition Tracer_ (p : TracerProvider) (name : string) : Tracer :=
  {| provider := p; instrumentation := name |}.

(** A span handle: what [SpanContext().IsValid()] and
    [TracerProvider()] answer, and an identity. *)
Record Span :=
  { spanID : nat; IsValid : bool; TracerProvider_ : TracerProvider }.

Definition noopTracerProvider : TracerProvider :=
  {| providerID := 0; sampled := false |}.

Definition noopSpan : Span :=
  {| spanID := 0; IsValid := false; TracerProvider_ := noopTracerProvider |}.

Inductive SpanStartOption :=
| WithAttributes (attributes : list attribute.KeyValue)
| WithSpanKind (kind : SpanKind).

End trace.

(** context: the values of a [context.Context] the interceptor reads,
    each of them absent or present. *)
Module context.

Record Context :=
  { packageName : option string;
    serviceName : option string;
    methodName : option string;
    currentSpan : option trace.Span }.

Definition Background : Context :=
  {| packageName := None; serviceName := None; methodName := None;
     currentSpan := None |}.

Definition ContextWithSpan (ctx : Context) (span : trace.Span) : Context :=
  {| packageName := packageName ctx;
     serviceName := serviceName ctx;
     methodName := methodName ctx;
     currentSpan := Some span |}.

(** [trace.SpanFromContext]: the no-op span when the context carries
    none. *)
Definition SpanFromContext (ctx : Context) : trace.Span :=
  match currentSpan ctx with
  | Some span => span
  | None => trace.noopSpan
  end.

End context.

(** github.com/twitchtv/twirp *)
Module twirp.

Definition ErrorCode := string.

Definition NoError : ErrorCode := "".
Definition Internal : ErrorCode := "internal".
Definition InvalidArgument : ErrorCode := "invalid_argument".

(** A value implementing the [twirp.Error] interface, seen through the
    methods the interceptor calls, and [Error()] which every error
    has. *)
Record Error := { Code : ErrorCode; Msg : string; ErrorText : string }.

(** A comma-ok string lookup in the context: [("", false)] when the
    value is absent. *)
Definition lookup (v : option string) : string * bool :=
  match v with
  | Some s => (s, true)
  | None => ("", false)
  end.

Definition PackageName (ctx : context.Context) : string * bool :=
  lookup (context.packageName ctx).

Definition ServiceName (ctx : context.Context) : string * bool :=
  lookup (context.serviceName ctx).

Definition MethodName (ctx : context.Context) : string * bool :=
  lookup (context.methodName ctx).

End twirp.

(** The builtin [error] interface.  A non-nil error holds a dynamic
    value: one whose type has [Error()] only, or one whose type also
    implements [twirp.Error]. *)
Inductive errorValue :=
| Plain (text : string)
| Classified (twerr : twirp.Error).

Definition error := option errorValue.

(** [err.Error()] *)
Definition Error (e : errorValue) : string :=
  match e with
  | Plain text => text
  | Classified twerr => twirp.ErrorText twerr
  end.

(** The type assertion [err.(twirp.Error)] on a non-nil error. *)
Definition assertTwirpError (e : errorValue) : option twirp.Error :=
  match e with
  | Plain _ => None
  | Classified twerr => Some twerr
  end.

(** A [twirp.Error] used where an [error] is expected. *)
Definition asError (twerr : twirp.Error) : error := Some (Classified twerr).

(** [twirp.InternalErrorWith] as the twirp package documents it: an
    internal error that takes the text of the wrapped error as its
    message.  The development is parametric in this function; this
    instance shows that what is assumed of it can be met. *)
Definition twirpInternalErrorWith (err : error) : twirp.Error :=
  let text := match err with Some e => Error e | None => "" end in
  {| twirp.Code := twirp.Internal;
     twirp.Msg := text;
     twirp.ErrorText := ("twirp error internal: " ++ text)%string |}.

(** ** Constants of the package *)

Definition InstrumentationName : string := "github.com/bakins/twirpotel".

Definition PackageNameKey : attribute.Key := "twirp.package".
Definition ServiceNameKey : attribute.Key := "twirp.service".
Definition MethodNameKey : attribute.Key := "twirp.method".
Definition ErrorCodeKey : attribute.Key := "twirp.error_code".
Definition ErrorMessageKey : attribute.Key := "twirp.error_message".

Definition NoErrorCode : attribute.Value := attribute.StringValue "ok".

(** ** Attribute derivation *)

Definition commonAtrributes (ctx : context.Context)
  : string * list attribute.KeyValue :=
  let '(packageName, _) := twirp.PackageName ctx in
  let '(serviceName, _) := twirp.ServiceName ctx in
  let '(methodName, _) := twirp.MethodName ctx in
  let fullMethod :=
    (packageName ++ "." ++ serviceName ++ "/" ++ methodName)%string in
  (fullMethod,
   [ {| attribute.key := PackageNameKey;
        attribute.value := attribute.StringValue packageName |};
     {| attribute.key := ServiceNameKey;
        attribute.value := attribute.StringValue serviceName |};
     {| attribute.key := MethodNameKey;
        attribute.value := attribute.StringValue methodName |};
     attribute.String semconv.RPCSystemKey "twirp";
     attribute.String semconv.RPCMethodKey methodName;
     attribute.String semconv.RPCServiceKey
       (packageName ++ "." ++ serviceName)%string ]).

(** ** The tracing backend as state

    The calls made on tracers and spans are recorded in order; the
    process-wide default provider of the otel package is part of the
    state, since [otel.SetTracerProvider] may replace it at any time. *)

Inductive Event :=
| Started (tracer : trace.Tracer) (span : trace.Span) (spanName : string)
    (opts : list trace.SpanStartOption)
| StatusSet (span : trace.Span) (code : codes.Code) (description : string)
| AttributesSet (span : trace.Span) (kv : list attribute.KeyValue)
| Ended (span : trace.Span).

Record State :=
  { globalTracerProvider : trace.TracerProvider;
    spanCounter : nat;
    calls : list Event }.

Definition record (ev : Event) (s : State) : State :=
  {| globalTracerProvider := globalTracerProvider s;
     spanCounter := spanCounter s;
     calls := calls s ++ [ev] |}.

(** A call as the tests of the repository make it: the Haberdasher
    service, no parent span, a recording provider as the process-wide
    default. *)
Module example.

Definition provider : trace.TracerProvider :=
  {| trace.providerID := 1; trace.sampled := true |}.

Definition parentProvider : trace.TracerProvider :=
  {| trace.providerID := 2; trace.sampled := true |}.

Definition ctx : context.Context :=
  {| context.packageName := Some "twitch.twirp.example";
     context.serviceName := Some "Haberdasher";
     context.methodName := Some "MakeHat";
     context.currentSpan := None |}.

Definition parent : trace.Span :=
  {| trace.spanID := 7; trace.IsValid := true;
     trace.TracerProvider_ := parentProvider |}.

Definition invalidParent : trace.Span :=
  {| trace.spanID := 8; trace.IsValid := false;
     trace.TracerProvider_ := parentProvider |}.

Definition initial : State :=
  {| globalTracerProvider := provider; spanCounter := 0; calls := [] |}.

(** The span a server-side call starts in the initial state, and the
    state it leaves to the wrapped method. *)
Definition span : trace.Span :=
  {| trace.spanID := 0; trace.IsValid := true;
     trace.TracerProvider_ := provider |}.

Definition started : State :=
  {| globalTracerProvider := provider;
     spanCounter := 1;
     calls :=
       [ Started (trace.Tracer_ provider InstrumentationName) span
           "twitch.twirp.example.Haberdasher/MakeHat"
           [ trace.WithAttributes (snd (commonAtrributes ctx));
             trace.WithSpanKind trace.SpanKindServer ] ] |}.

End example.

(** ** Go computations: state, and a result or a panic *)

Section Go.

(** The values behind [interface{}]: requests, responses and panic
    values. *)
Variable Any : Type.

Inductive Outcome (A : Type) :=
| Return (a : A)
| Panic (v : Any).

Arguments Return {A} a.
Arguments Panic {A} v.

Definition Go (A : Type) : Type := State -> Outcome A * State.

Definition ret {A} (a : A) : Go A := fun s => (Return a, s).

Definition bind {A B} (m : Go A) (k : A -> Go B) : Go B :=
  fun s =>
    match m s with
    | (Return a, s1) => k a s1
    | (Panic v, s1) => (Panic v, s1)
    end.

Notation "x <- m ;; k" := (bind m (fun x => k))
  (at level 61, m at next level, right associativity).
Notation "' pat <- m ;; k" := (bind m (fun x => match x with pat => k end))
  (at level 61, pat pattern, m at next level, right associativity).
Notation "m ;; k" := (bind m (fun _ => k))
  (at level 61, right associativity).

(** [defer d] before [body]: the deferred call runs when the body
    returns and when it panics; the panic goes on afterwards, unless
    the deferred call panics itself. *)
Definition defer {A} (deferred : Go unit) (body : Go A) : Go A :=
  fun s =>
    match body s with
    | (Return a, s1) =>
        match deferred s1 with
        | (Return _, s2) => (Return a, s2)
        | (Panic v, s2) => (Panic v, s2)
        end
    | (Panic v, s1) =>
        match deferred s1 with
        | (Return _, s2) => (Panic v, s2)
        | (Panic v', s2) => (Panic v', s2)
        end
    end.

(** *** otel and trace operations *)

(** [otel.GetTracerProvider()] *)
Definition GetTracerProvider : Go trace.TracerProvider :=
  fun s => (Return (globalTracerProvider s), s).

(** [tracer.Start(ctx, name, opts...)]: a fresh span of the tracer's
    provider, and the context that carries it. *)
Definition Start (tracer : trace.Tracer) (ctx : context.Context)
    (spanName : string) (opts : list trace.SpanStartOption)
  : Go (context.Context * trace.Span) :=
  fun s =>
    let span :=
      {| trace.spanID := spanCounter s;
         trace.IsValid := trace.sampled (trace.provider tracer);
         trace.TracerProvider_ := trace.provider tracer |} in
    (Return (context.ContextWithSpan ctx span, span),
     {| globalTracerProvider := globalTracerProvider s;
        spanCounter := S (spanCounter s);
        calls := calls s ++ [Started tracer span spanName opts] |}).

Definition SetStatus (span : trace.Span) (code : codes.Code)
    (description : string) : Go unit :=
  fun s => (Return tt, record (StatusSet span code description) s).

Definition SetAttributes (span : trace.Span)
    (kv : list attribute.KeyValue) : Go unit :=
  fun s => (Return tt, record (AttributesSet span kv) s).

Definition End (span : trace.Span) : Go unit :=
  fun s => (Return tt, record (Ended span) s).

(** *** Configuration *)

(** The provider field is an interface value: [None] is nil. *)
Record config := { provider : option trace.TracerProvider }.

Definition getTracerProvider (c : config) (ctx : context.Context)
  : Go trace.TracerProvider :=
  match provider c with
  | Some p => ret p
  | None =>
      let span := context.SpanFromContext ctx in
      if trace.IsValid span then ret (trace.TracerProvider_ span)
      else GetTracerProvider
  end.

(** An option mutates the configuration it is applied to. *)
Definition optionFunc := config -> config.

Definition Option := optionFunc.

Definition apply (f : optionFunc) (c : config) : config := f c.

Definition WithTracerProvider (p : option trace.TracerProvider) : Option :=
  fun c => {| provider := p |}.

(** *** Error classification *)

(** [twirp.InternalErrorWith], of the twirp package. *)
Variable InternalErrorWith : error -> twirp.Error.

Definition getTwirpErrorAttributes (err : error)
  : list attribute.KeyValue :=
  match err with
  | None =>
      [ {| attribute.key := ErrorCodeKey;
           attribute.value := NoErrorCode |} ]
  | Some e =>
      let twerr :=
        match assertTwirpError e with
        | Some twerr => twerr
        | None => InternalErrorWith err
        end in
      [ {| attribute.key := ErrorCodeKey;
           attribute.value := attribute.StringValue (twirp.Code twerr) |};
        {| attribute.key := ErrorMessageKey;
           attribute.value := attribute.StringValue (twirp.Msg twerr) |} ]
  end.

(** *** Interceptors *)

(** [twirp.Method] and [twirp.Interceptor] *)
Definition Method := context.Context -> Any -> Go (Any * error).

Definition Interceptor := Method -> Method.

(** The configuration after the loop over the options, starting from
    the zero value. *)
Definition configure (options : list Option) : config :=
  fold_left (fun c o => apply o c) options {| provider := None |}.

Definition interceptor (kind : trace.SpanKind) (options : list Option)
  : Interceptor :=
  let c := configure options in
  fun next ctx req =>
    tp <- getTracerProvider c ctx ;;
    let tracer := trace.Tracer_ tp InstrumentationName in
    let '(fullMethod, attributes) := commonAtrributes ctx in
    ' (ctx', span) <-
      Start tracer ctx fullMethod
        [trace.WithAttributes attributes; trace.WithSpanKind kind] ;;
    defer (End span)
      (' (resp, err) <- next ctx' req ;;
       match err with
       | Some e => SetStatus span codes.Error (Error e)
       | None => ret tt
       end ;;
       SetAttributes span (getTwirpErrorAttributes err) ;;
       ret (resp, err)).

Definition ServerInterceptor (options : list Option) : Interceptor :=
  interceptor trace.SpanKindServer options.

Definition ClientInterceptor (options : list Option) : Interceptor :=
  interceptor trace.SpanKindClient options.

(** *** Observations on a call

    The statements below speak of three moments of a call of the
    intercepted method: the start of the span, the call of the wrapped
    method, and what happens once the wrapped method is done. *)

(** The body of the intercepted method up to its [defer]: the tracer
    is resolved and the span started. *)
Definition prologue (kind : trace.SpanKind) (c : config)
    (ctx : context.Context) : Go (context.Context * trace.Span) :=
  tp <- getTracerProvider c ctx ;;
  let tracer := trace.Tracer_ tp InstrumentationName in
  let '(fullMethod, attributes) := commonAtrributes ctx in
  Start tracer ctx fullMethod
    [trace.WithAttributes attributes; trace.WithSpanKind kind].

(** The calls on the span that follow a return of the wrapped method
    with error [err]. *)
Definition afterReturn (span : trace.Span) (err : error) : list Event :=
  match err with
  | Some e => [StatusSet span codes.Error (Error e)]
  | None => []
  end
  ++ [AttributesSet span (getTwirpErrorAttributes err); Ended span].

(** The calls on the span that follow the wrapped method, whichever
    way it exits. *)
Definition afterNext (span : trace.Span) (o : Outcome (Any * error))
  : list Event :=
  match o with
  | Return (_, err) => afterReturn span err
  | Panic _ => [Ended span]
  end.

Definition extend (s : State) (evs : list Event) : State :=
  {| globalTracerProvider := globalTracerProvider s;
     spanCounter := spanCounter s;
     calls := calls s ++ evs |}.

Definition span_eqb (a b : trace.Span) : bool :=
  Nat.eqb (trace.spanID a) (trace.spanID b)
  && Bool.eqb (trace.IsValid a) (trace.IsValid b)
  && Nat.eqb (trace.providerID (trace.TracerProvider_ a))
       (trace.providerID (trace.TracerProvider_ b))
  && Bool.eqb (trace.sampled (trace.TracerProvider_ a))
       (trace.sampled (trace.TracerProvider_ b)).

(** How many times [span.End()] is called in a sequence of calls. *)
Fixpoint ended (span : trace.Span) (evs : list Event) : nat :=
  match evs with
  | [] => 0
  | Ended sp :: rest =>
      (if span_eqb span sp then 1 else 0) + ended span rest
  | _ :: rest => ended span rest
  end.

(** The keys of a list of attributes. *)
Definition keys (kv : list attribute.KeyValue) : list attribute.Key :=
  map attribute.key kv.

(** The classification inside [getTwirpErrorAttributes]: the error
    itself when it is a [twirp.Error], its wrapping otherwise. *)
Definition classify (e : errorValue) : twirp.Error :=
  match assertTwirpError e with
  | Some twerr => twerr
  | None => InternalErrorWith (Some e)
  end.

(** The loop over the options, from any configuration. *)
Definition applyOptions (options : list Option) (c : config) : config :=
  fold_left (fun c o => apply o c) options c.

(** *** Reading a recorded span *)

(** The attributes the start options give a span. *)
Fixpoint startAttributes (opts : list trace.SpanStartOption)
  : list attribute.KeyValue :=
  match opts with
  | [] => []
  | trace.WithAttributes attributes :: rest =>
      attributes ++ startAttributes rest
  | trace.WithSpanKind _ :: rest => startAttributes rest
  end.


(** The attributes a sequence of calls attaches to a span, in the
    order of the calls: those of its start and those set later. *)
Fixpoint attributesOf (span : trace.Span) (evs : list Event)
  : list attribute.KeyValue :=
  match evs with
  | [] => []
  | Started _ sp _ opts :: rest =>
      (if span_eqb span sp then startAttributes opts else [])
      ++ attributesOf span rest
  | AttributesSet sp kv :: rest =>
      (if span_eqb span sp then kv else []) ++ attributesOf span rest
  | _ :: rest => attributesOf span rest
  end.

(** [requireAttribute] of the tests of the package: the first
    attribute with the key is the one looked at, and its value as a
    string must be the expected one; the requirement fails when no
    attribute has the key. *)
Fixpoint requireAttribute (attributes : list attribute.KeyValue)
    (key : attribute.Key) (value : string) : bool :=
  match attributes with
  | [] => false
  | a :: rest =>
      if negb (String.eqb (attribute.key a) key)
      then requireAttribute rest key value
      else String.eqb value (attribute.AsString (attribute.value a))
  end.

(** ** Attributes *)

Lemma getTwirpErrorAttributes_classify (e : errorValue) :
  getTwirpErrorAttributes (Some e) =
    [ attribute.KV ErrorCodeKey
        (attribute.StringValue (twirp.Code (classify e)));
      attribute.KV ErrorMessageKey
        (attribute.StringValue (twirp.Msg (classify e))) ].
Proof. unfold getTwirpErrorAttributes, classify. reflexivity. Qed.

Lemma classify_classified (twerr : twirp.Error) :
  classify (Classified twerr) = twerr.
Proof. reflexivity. Qed.

(** C1: a non-nil error that does not implement twirp.Error gets the
    internal error code as its error-code attribute and the message
    of [twirp.InternalErrorWith] of the error as its error-message
    attribute, given that [twirp.InternalErrorWith] makes an error of
    code internal. *)
Theorem unclassified_error_attributes :
  forall e : errorValue,
    assertTwirpError e = None ->
    twirp.Code (InternalErrorWith (Some e)) = twirp.Internal ->
    getTwirpErrorAttributes (Some e) =
      [ attribute.KV ErrorCodeKey (attribute.StringValue twirp.Internal);
        attribute.KV ErrorMessageKey
          (attribute.StringValue
             (twirp.Msg (InternalErrorWith (Some e)))) ].
Proof.
  intros e Hassert Hcode.
  rewrite getTwirpErrorAttributes_classify.
  unfold classify. rewrite Hassert, Hcode. reflexivity.
Qed.

(** C2: for a nil error the classification is the single attribute
    twirp.error_code with the value "ok"; no attribute has the key
    twirp.error_message. *)
Theorem nil_error_attributes :
  getTwirpErrorAttributes None =
    [ attribute.KV ErrorCodeKey (attribute.StringValue "ok") ]
  /\ length (getTwirpErrorAttributes None) = 1
  /\ existsb (String.eqb ErrorMessageKey)
       (keys (getTwirpErrorAttributes None)) = false.
Proof. repeat split. Qed.

(** C3: an error that implements twirp.Error is classified as itself,
    its code and message are the attributes verbatim, and classifying
    the result of a classification changes nothing. *)
Theorem classified_error_verbatim :
  (forall twerr : twirp.Error,
      getTwirpErrorAttributes (asError twerr) =
        [ attribute.KV ErrorCodeKey
            (attribute.StringValue (twirp.Code twerr));
          attribute.KV ErrorMessageKey
            (attribute.StringValue (twirp.Msg twerr)) ])
  /\ (forall twerr : twirp.Error, classify (Classified twerr) = twerr)
  /\ (forall e : errorValue,
        classify (Classified (classify e)) = classify e)
  /\ (forall e : errorValue,
        getTwirpErrorAttributes (asError (classify e)) =
          getTwirpErrorAttributes (Some e)).
Proof.
  split; [| split; [| split]].
  - intros twerr. reflexivity.
  - exact classify_classified.
  - intros e. apply classify_classified.
  - intros e. unfold asError.
    rewrite !getTwirpErrorAttributes_classify, classify_classified.
    reflexivity.
Qed.

(** C5: the span name is package, ".", service, "/", method, where an
    absent component reads as the empty string; it is "p.S/M" for
    "p", "S" and "M", and "./" when all three are absent or empty. *)
Theorem span_name_concatenation :
  (forall ctx : context.Context,
      fst (commonAtrributes ctx) =
        (fst (twirp.PackageName ctx) ++ "." ++
         fst (twirp.ServiceName ctx) ++ "/" ++
         fst (twirp.MethodName ctx))%string)
  /\ (forall v : option string,
        fst (twirp.lookup v) = match v with Some s => s | None => "" end)
  /\ (forall span : option trace.Span,
        fst (commonAtrributes
               {| context.packageName := Some "p";
                  context.serviceName := Some "S";
                  context.methodName := Some "M";
                  context.currentSpan := span |}) = "p.S/M")
  /\ (forall span : option trace.Span,
        fst (commonAtrributes
               {| context.packageName := None;
                  context.serviceName := None;
                  context.methodName := None;
                  context.currentSpan := span |}) = "./")
  /\ (forall span : option trace.Span,
        fst (commonAtrributes
               {| context.packageName := Some "";
                  context.serviceName := Some "";
                  context.methodName := Some "";
                  context.currentSpan := span |}) = "./").
Proof.
  split; [| split; [| repeat split]].
  - intros ctx.
    unfold commonAtrributes, twirp.PackageName, twirp.ServiceName,
      twirp.MethodName.
    destruct (context.packageName ctx), (context.serviceName ctx),
      (context.methodName ctx); reflexivity.
  - intros [s |]; reflexivity.
Qed.

(** C7: the base attributes are six string-valued attributes, in this
    order: twirp.package, twirp.service and twirp.method with the
    three names, the RPC system "twirp", the RPC method with the
    method name and the RPC service with package, ".", service. *)
Theorem base_attributes :
  forall ctx : context.Context,
    let packageName := fst (twirp.PackageName ctx) in
    let serviceName := fst (twirp.ServiceName ctx) in
    let methodName := fst (twirp.MethodName ctx) in
    snd (commonAtrributes ctx) =
      [ attribute.KV "twirp.package" (attribute.StringValue packageName);
        attribute.KV "twirp.service" (attribute.StringValue serviceName);
        attribute.KV "twirp.method" (attribute.StringValue methodName);
        attribute.KV semconv.RPCSystemKey (attribute.StringValue "twirp");
        attribute.KV semconv.RPCMethodKey
          (attribute.StringValue methodName);
        attribute.KV semconv.RPCServiceKey
          (attribute.StringValue
             (packageName ++ "." ++ serviceName)%string) ]
    /\ length (snd (commonAtrributes ctx)) = 6
    /\ forallb (fun kv => attribute.isString (attribute.value kv))
         (snd (commonAtrributes ctx)) = true.
Proof.
  intros ctx.
  unfold commonAtrributes, twirp.PackageName, twirp.ServiceName,
    twirp.MethodName.
  destruct (context.packageName ctx), (context.serviceName ctx),
    (context.methodName ctx); cbn; repeat split.
Qed.

(** ** Running the intercepted method *)

Lemma record_as_extend (ev : Event) (s : State) :
  record ev s = extend s [ev].
Proof. reflexivity. Qed.

Lemma extend_extend (s : State) (evs evs' : list Event) :
  extend (extend s evs) evs' = extend s (evs ++ evs').
Proof. unfold extend. cbn. rewrite app_assoc. reflexivity. Qed.

Lemma getTracerProvider_reads (c : config) (ctx : context.Context)
    (s : State) :
  exists tp, getTracerProvider c ctx s = (Return tp, s).
Proof.
  unfold getTracerProvider.
  destruct (provider c) as [p |].
  - exists p. reflexivity.
  - destruct (trace.IsValid (context.SpanFromContext ctx)).
    + eexists. reflexivity.
    + eexists. reflexivity.
Qed.

(** The prologue always returns: it starts a span of the resolved
    provider and records the start. *)
Lemma prologue_returns (kind : trace.SpanKind) (c : config)
    (ctx : context.Context) (s : State) :
  exists tp,
    getTracerProvider c ctx s = (Return tp, s)
    /\ let span :=
         {| trace.spanID := spanCounter s;
            trace.IsValid := trace.sampled tp;
            trace.TracerProvider_ := tp |} in
       prologue kind c ctx s =
         (Return (context.ContextWithSpan ctx span, span),
          {| globalTracerProvider := globalTracerProvider s;
             spanCounter := S (spanCounter s);
             calls :=
               calls s ++
               [ Started (trace.Tracer_ tp InstrumentationName) span
                   (fst (commonAtrributes ctx))
                   [ trace.WithAttributes (snd (commonAtrributes ctx));
                     trace.WithSpanKind kind ] ] |}).
Proof.
  destruct (getTracerProvider_reads c ctx s) as [tp Htp].
  exists tp. split; [exact Htp |].
  unfold prologue, bind. rewrite Htp.
  destruct (commonAtrributes ctx) as [fullMethod attributes].
  reflexivity.
Qed.

(** The intercepted method is its prologue, one call of the wrapped
    method, and the calls on the span that follow it. *)
Lemma interceptor_run (kind : trace.SpanKind) (options : list Option)
    (next : Method) (ctx : context.Context) (req : Any) (s : State)
    (ctx' : context.Context) (span : trace.Span) (s1 : State) :
  prologue kind (configure options) ctx s = (Return (ctx', span), s1) ->
  interceptor kind options next ctx req s =
    (fst (next ctx' req s1),
     extend (snd (next ctx' req s1))
       (afterNext span (fst (next ctx' req s1)))).
Proof.
  intros Hpro.
  destruct (getTracerProvider_reads (configure options) ctx s)
    as [tp Htp].
  unfold interceptor, prologue, bind in *. rewrite Htp in *.
  destruct (commonAtrributes ctx) as [fullMethod attributes].
  unfold Start in *. inversion Hpro; subst; clear Hpro.
  unfold defer.
  destruct (next _ req _) as [[[resp err] | v] s2]; cbn.
  - destruct err as [e |]; cbn;
      rewrite !record_as_extend, !extend_extend; reflexivity.
  - reflexivity.
Qed.

Lemma span_eqb_refl (span : trace.Span) : span_eqb span span = true.
Proof.
  unfold span_eqb.
  rewrite !Nat.eqb_refl, !Bool.eqb_reflx. reflexivity.
Qed.

Lemma ended_afterReturn (span : trace.Span) (err : error) :
  ended span (afterReturn span err) = 1.
Proof.
  unfold afterReturn.
  destruct err; cbn; rewrite span_eqb_refl; reflexivity.
Qed.

Lemma ended_afterNext (span : trace.Span) (o : Outcome (Any * error)) :
  ended span (afterNext span o) = 1.
Proof.
  destruct o as [[resp err] | v]; cbn [afterNext].
  - apply ended_afterReturn.
  - cbn. rewrite span_eqb_refl. reflexivity.
Qed.

Lemma last_afterNext (span : trace.Span) (o : Outcome (Any * error))
    (d : Event) :
  last (afterNext span o) d = Ended span.
Proof.
  destruct o as [[resp [e |]] | v]; reflexivity.
Qed.

(** ** The intercepted method *)

(** C4: the intercepted method calls the wrapped method once, at a
    context and state that do not depend on the wrapped method, and
    its outcome is the outcome of that call: a response and an error
    the wrapped method returns are returned as they are, a plain
    error included. *)
Theorem interceptor_returns_result_of_next :
  forall (kind : trace.SpanKind) (options : list Option)
         (ctx : context.Context) (req : Any) (s : State),
  exists ctx' span s1,
    prologue kind (configure options) ctx s = (Return (ctx', span), s1)
    /\ (forall next : Method,
          fst (interceptor kind options next ctx req s) =
            fst (next ctx' req s1))
    /\ (forall (next : Method) (resp : Any) (err : error) (s2 : State),
          next ctx' req s1 = (Return (resp, err), s2) ->
          fst (interceptor kind options next ctx req s) =
            Return (resp, err)).
Proof.
  intros kind options ctx req s.
  destruct (prologue_returns kind (configure options) ctx s)
    as [tp [_ Hpro]].
  cbv zeta in Hpro.
  do 3 eexists. split; [exact Hpro |]. split.
  - intros next. rewrite (interceptor_run _ _ next _ req _ _ _ _ Hpro).
    reflexivity.
  - intros next resp err s2 Hnext.
    rewrite (interceptor_run _ _ next _ req _ _ _ _ Hpro), Hnext.
    reflexivity.
Qed.

(** C8: when the wrapped method returns, the calls the intercepted
    method makes afterwards contain a status call if and only if the
    error is not nil, and then it is on the span of the call, with
    the code Error and the text of the error as description. *)
Theorem status_set_iff_error :
  forall (kind : trace.SpanKind) (options : list Option) (next : Method)
         (ctx : context.Context) (req : Any) (s : State)
         (ctx' : context.Context) (span : trace.Span) (s1 : State)
         (resp : Any) (err : error) (s2 : State),
    prologue kind (configure options) ctx s = (Return (ctx', span), s1) ->
    next ctx' req s1 = (Return (resp, err), s2) ->
    (exists tracer spanName opts,
        calls s1 = calls s ++ [Started tracer span spanName opts])
    /\ exists tail,
        calls (snd (interceptor kind options next ctx req s)) =
          calls s2 ++ tail
        /\ (forall sp code description,
              In (StatusSet sp code description) tail <->
              exists e, err = Some e /\ sp = span
                        /\ code = codes.Error /\ description = Error e)
        /\ (err = None ->
            forall sp code description,
              ~ In (StatusSet sp code description) tail).
Proof.
  intros kind options next ctx req s ctx' span s1 resp err s2 Hpro Hnext.
  split.
  - destruct (prologue_returns kind (configure options) ctx s)
      as [tp [_ Hpro']].
    cbv zeta in Hpro'. rewrite Hpro' in Hpro.
    inversion Hpro; subst. cbn. do 3 eexists. reflexivity.
  - exists (afterReturn span err).
    rewrite (interceptor_run _ _ next _ req _ _ _ _ Hpro), Hnext.
    cbn. split; [reflexivity |]. split.
    + intros sp code description. unfold afterReturn.
      destruct err as [e |]; cbn; split.
      * intros [H | [H | [H | []]]]; try discriminate H.
        inversion H; subst. exists e. repeat split.
      * intros [e' [He [Hsp [Hcode Hdesc]]]].
        inversion He; subst. left. reflexivity.
      * intros [H | [H | []]]; discriminate H.
      * intros [e' [He _]]. discriminate He.
    + intros Herr sp code description. subst err. cbn.
      intros [H | [H | []]]; discriminate H.
Qed.

(** C9: whichever way the wrapped method exits, the calls the
    intercepted method makes afterwards end the span of the call
    exactly once, as the last call; when the wrapped method panics,
    ending the span is all that is done and the panic goes on. *)
Theorem span_ended_exactly_once :
  forall (kind : trace.SpanKind) (options : list Option)
         (ctx : context.Context) (req : Any) (s : State),
  exists ctx' span s1,
    prologue kind (configure options) ctx s = (Return (ctx', span), s1)
    /\ (exists tracer spanName opts,
          calls s1 = calls s ++ [Started tracer span spanName opts])
    /\ forall next : Method,
        exists tail,
          calls (snd (interceptor kind options next ctx req s)) =
            calls (snd (next ctx' req s1)) ++ tail
          /\ ended span tail = 1
          /\ (forall d, last tail d = Ended span)
          /\ (forall v, fst (next ctx' req s1) = Panic v ->
                tail = [Ended span]
                /\ fst (interceptor kind options next ctx req s) =
                     Panic v).
Proof.
  intros kind options ctx req s.
  destruct (prologue_returns kind (configure options) ctx s)
    as [tp [_ Hpro]].
  cbv zeta in Hpro.
  do 3 eexists. split; [exact Hpro |]. split.
  - cbn. do 3 eexists. reflexivity.
  - intros next.
    rewrite (interceptor_run _ _ next _ req _ _ _ _ Hpro).
    eexists. split; [reflexivity |]. split; [| split].
    + apply ended_afterNext.
    + intros d. apply last_afterNext.
    + intros v Hv. rewrite Hv. split; reflexivity.
Qed.

(** ** Configuration *)

(** C6: an explicit provider is the one used; without it, the
    provider of a valid span of the context; without that, the
    process-wide default of the moment of the call.  Resolution always
    returns a provider and leaves the state as it is, and every call
    of the intercepted method starts its span with the provider
    resolved in the state of that call. *)
Theorem tracer_provider_resolution :
  (forall p ctx s,
      getTracerProvider {| provider := Some p |} ctx s = (Return p, s))
  /\ (forall ctx span s,
        context.currentSpan ctx = Some span ->
        trace.IsValid span = true ->
        getTracerProvider {| provider := None |} ctx s =
          (Return (trace.TracerProvider_ span), s))
  /\ (forall ctx span s,
        context.currentSpan ctx = Some span ->
        trace.IsValid span = false ->
        getTracerProvider {| provider := None |} ctx s =
          (Return (globalTracerProvider s), s))
  /\ (forall ctx s,
        context.currentSpan ctx = None ->
        getTracerProvider {| provider := None |} ctx s =
          (Return (globalTracerProvider s), s))
  /\ (forall c ctx s,
        exists p, getTracerProvider c ctx s = (Return p, s))
  /\ (forall kind options ctx s,
        exists ctx' span s1,
          prologue kind (configure options) ctx s =
            (Return (ctx', span), s1)
          /\ getTracerProvider (configure options) ctx s =
               (Return (trace.TracerProvider_ span), s)).
Proof.
  repeat apply conj.
  - reflexivity.
  - intros ctx span s Hspan Hvalid.
    unfold getTracerProvider, context.SpanFromContext. cbn.
    rewrite Hspan, Hvalid. reflexivity.
  - intros ctx span s Hspan Hvalid.
    unfold getTracerProvider, context.SpanFromContext. cbn.
    rewrite Hspan, Hvalid. reflexivity.
  - intros ctx s Hspan.
    unfold getTracerProvider, context.SpanFromContext. cbn.
    rewrite Hspan. reflexivity.
  - exact getTracerProvider_reads.
  - intros kind options ctx s.
    destruct (prologue_returns kind (configure options) ctx s)
      as [tp [Htp Hpro]].
    cbv zeta in Hpro. do 3 eexists. split; [exact Hpro |]. exact Htp.
Qed.

Lemma applyOptions_app (o1 o2 : list Option) (c : config) :
  applyOptions (o1 ++ o2) c = applyOptions o2 (applyOptions o1 c).
Proof. unfold applyOptions. apply fold_left_app. Qed.

Lemma configure_last (options : list Option)
    (p : option trace.TracerProvider) :
  configure (options ++ [WithTracerProvider p]) = {| provider := p |}.
Proof.
  unfold configure. rewrite fold_left_app. reflexivity.
Qed.

(** C10: the options are applied one after the other, in the order of
    the list, to one configuration that starts as the zero value; the
    provider of a last WithTracerProvider option is the one the
    configuration holds, whatever the options before it; when it is
    not nil every call resolves to it, and when it is nil every call
    resolves as with no option at all. *)
Theorem last_tracer_provider_option_wins :
  (forall options, configure options =
                     applyOptions options {| provider := None |})
  /\ (forall c, applyOptions [] c = c)
  /\ (forall o options c,
        applyOptions (o :: options) c = applyOptions options (apply o c))
  /\ (forall o1 o2 c,
        applyOptions (o1 ++ o2) c = applyOptions o2 (applyOptions o1 c))
  /\ (forall options p,
        provider (configure (options ++ [WithTracerProvider p])) = p)
  /\ (forall ps : list (option trace.TracerProvider),
        provider (configure (map WithTracerProvider ps)) = last ps None)
  /\ (forall options p ctx s,
        getTracerProvider
          (configure (options ++ [WithTracerProvider (Some p)])) ctx s =
          (Return p, s))
  /\ (forall options ctx s,
        getTracerProvider
          (configure (options ++ [WithTracerProvider None])) ctx s =
          getTracerProvider {| provider := None |} ctx s)
  /\ (forall kind options p ctx req s,
        exists ctx' span s1,
          trace.TracerProvider_ span = p
          /\ context.currentSpan ctx' = Some span
          /\ forall next : Method,
              fst (interceptor kind
                     (options ++ [WithTracerProvider (Some p)])
                     next ctx req s) =
                fst (next ctx' req s1)).
Proof.
  repeat apply conj.
  - reflexivity.
  - reflexivity.
  - reflexivity.
  - exact applyOptions_app.
  - intros options p. rewrite configure_last. reflexivity.
  - intros ps. destruct ps as [| p ps] using rev_ind.
    + reflexivity.
    + rewrite map_app. cbn [map]. rewrite configure_last, last_last.
      reflexivity.
  - intros options p ctx s. rewrite configure_last. reflexivity.
  - intros options ctx s. rewrite configure_last. reflexivity.
  - intros kind options p ctx req s.
    destruct (prologue_returns kind
                (configure (options ++ [WithTracerProvider (Some p)]))
                ctx s) as [tp [Htp Hpro]].
    cbv zeta in Hpro.
    rewrite configure_last in Htp. cbn in Htp.
    inversion Htp; subst tp.
    match type of Hpro with
    | _ = (Return (?c, ?sp), ?s1) => exists c, sp, s1
    end.
    split; [reflexivity |]. split; [reflexivity |].
    intros next.
    rewrite (interceptor_run _ _ next _ req _ _ _ _ Hpro).
    reflexivity.
Qed.

(** ** Further properties of the intercepted method *)

(** The span of a call is started on a tracer of the resolved provider
    named after the package, with the name and the base attributes
    derived from the incoming context and the kind of the interceptor;
    the wrapped method then runs on the incoming context with that span
    as its current span. *)
Theorem span_started_from_context :
  forall (kind : trace.SpanKind) (options : list Option)
         (ctx : context.Context) (req : Any) (s : State),
  exists tp span s1,
    getTracerProvider (configure options) ctx s = (Return tp, s)
    /\ trace.TracerProvider_ span = tp
    /\ calls s1 =
         calls s ++
         [ Started (trace.Tracer_ tp "github.com/bakins/twirpotel") span
             (fst (commonAtrributes ctx))
             [ trace.WithAttributes (snd (commonAtrributes ctx));
               trace.WithSpanKind kind ] ]
    /\ globalTracerProvider s1 = globalTracerProvider s
    /\ forall next : Method,
        fst (interceptor kind options next ctx req s) =
          fst (next (context.ContextWithSpan ctx span) req s1).
Proof.
  intros kind options ctx req s.
  destruct (prologue_returns kind (configure options) ctx s)
    as [tp [Htp Hpro]].
  cbv zeta in Hpro.
  match type of Hpro with
  | _ = (Return (_, ?sp), ?s1) => exists tp, sp, s1
  end.
  split; [exact Htp |]. split; [reflexivity |].
  split; [reflexivity |]. split; [reflexivity |].
  intros next. rewrite (interceptor_run _ _ next _ req _ _ _ _ Hpro).
  reflexivity.
Qed.

(** The server and the client interceptor differ in the span kind they
    start the span with, server and client, and in nothing else: the
    same span, on the same tracer, under the same name, with the same
    attributes, and the same context for the wrapped method. *)
Theorem server_and_client_differ_in_kind :
  forall (options : list Option) (ctx : context.Context) (req : Any)
         (s : State),
  exists tracer span spanName attributes ctx' s1 s1',
    calls s1 =
      calls s ++ [ Started tracer span spanName
                     [ trace.WithAttributes attributes;
                       trace.WithSpanKind trace.SpanKindServer ] ]
    /\ calls s1' =
         calls s ++ [ Started tracer span spanName
                        [ trace.WithAttributes attributes;
                          trace.WithSpanKind trace.SpanKindClient ] ]
    /\ spanCounter s1 = spanCounter s1'
    /\ globalTracerProvider s1 = globalTracerProvider s1'
    /\ forall next : Method,
        ServerInterceptor options next ctx req s =
          (fst (next ctx' req s1),
           extend (snd (next ctx' req s1))
             (afterNext span (fst (next ctx' req s1))))
        /\ ClientInterceptor options next ctx req s =
             (fst (next ctx' req s1'),
              extend (snd (next ctx' req s1'))
                (afterNext span (fst (next ctx' req s1')))).
Proof.
  intros options ctx req s.
  destruct (prologue_returns trace.SpanKindServer (configure options) ctx s)
    as [tp [Htp Hserver]].
  destruct (prologue_returns trace.SpanKindClient (configure options) ctx s)
    as [tp' [Htp' Hclient]].
  rewrite Htp in Htp'. inversion Htp'; subst tp'. clear Htp'.
  cbv zeta in Hserver, Hclient.
  match type of Hserver with
  | _ = (Return (?c, ?sp), ?s1) =>
      match type of Hclient with
      | _ = (_, ?s1') =>
          exists (trace.Tracer_ tp InstrumentationName), sp,
            (fst (commonAtrributes ctx)), (snd (commonAtrributes ctx)),
            c, s1, s1'
      end
  end.
  split; [reflexivity |]. split; [reflexivity |].
  split; [reflexivity |]. split; [reflexivity |].
  intros next. unfold ServerInterceptor, ClientInterceptor. split.
  - exact (interceptor_run _ _ next _ req _ _ _ _ Hserver).
  - exact (interceptor_run _ _ next _ req _ _ _ _ Hclient).
Qed.

(** When the wrapped method returns, the intercepted method leaves the
    state of the wrapped method with these calls added, in this order:
    for a nil error the code attribute "ok" and the end of the span;
    for an error the status with the text of the error, the code and
    the message of its classification, and the end of the span. *)
Theorem calls_after_return :
  forall (kind : trace.SpanKind) (options : list Option) (next : Method)
         (ctx : context.Context) (req : Any) (s : State)
         (ctx' : context.Context) (span : trace.Span) (s1 : State)
         (resp : Any) (err : error) (s2 : State),
    prologue kind (configure options) ctx s = (Return (ctx', span), s1) ->
    next ctx' req s1 = (Return (resp, err), s2) ->
    interceptor kind options next ctx req s =
      (Return (resp, err),
       {| globalTracerProvider := globalTracerProvider s2;
          spanCounter := spanCounter s2;
          calls :=
            calls s2 ++
            match err with
            | None =>
                [ AttributesSet span
                    [ attribute.KV "twirp.error_code"
                        (attribute.StringValue "ok") ];
                  Ended span ]
            | Some e =>
                [ StatusSet span codes.Error (Error e);
                  AttributesSet span
                    [ attribute.KV "twirp.error_code"
                        (attribute.StringValue (twirp.Code (classify e)));
                      attribute.KV "twirp.error_message"
                        (attribute.StringValue (twirp.Msg (classify e))) ];
                  Ended span ]
            end |}).
Proof.
  intros kind options next ctx req s ctx' span s1 resp err s2 Hpro Hnext.
  rewrite (interceptor_run _ _ next _ req _ _ _ _ Hpro), Hnext.
  destruct err as [e |]; reflexivity.
Qed.

(** The intercepted method reads the process-wide default provider and
    never replaces it: around a wrapped method that leaves it alone,
    the intercepted method leaves it alone. *)
Theorem global_provider_preserved :
  forall (kind : trace.SpanKind) (options : list Option) (next : Method),
    (forall ctx req s,
        globalTracerProvider (snd (next ctx req s)) =
          globalTracerProvider s) ->
    forall ctx req s,
      globalTracerProvider
        (snd (interceptor kind options next ctx req s)) =
        globalTracerProvider s.
Proof.
  intros kind options next Hnext ctx req s.
  destruct (prologue_returns kind (configure options) ctx s)
    as [tp [_ Hpro]].
  cbv zeta in Hpro.
  rewrite (interceptor_run _ _ next _ req _ _ _ _ Hpro).
  cbn [snd extend globalTracerProvider].
  rewrite Hnext. reflexivity.
Qed.

(** ** The attributes of a recorded span *)

Lemma attributesOf_app (span : trace.Span) (evs evs' : list Event) :
  attributesOf span (evs ++ evs') =
    attributesOf span evs ++ attributesOf span evs'.
Proof.
  induction evs as [| ev evs IH]; [reflexivity |].
  destruct ev; cbn [app attributesOf]; rewrite IH;
    try rewrite app_assoc; reflexivity.
Qed.

Lemma attributesOf_afterNext (span : trace.Span)
    (o : Outcome (Any * error)) :
  attributesOf span (afterNext span o) =
    match o with
    | Return (_, err) => getTwirpErrorAttributes err
    | Panic _ => []
    end.
Proof.
  destruct o as [[resp [e |]] | v]; cbn;
    rewrite ?span_eqb_refl, ?app_nil_r; reflexivity.
Qed.

(** To whatever the span of a call has as attributes, the start adds
    the base attributes, a return of the wrapped method adds the
    classification of its error after those the wrapped method has
    set, and a panic adds nothing. *)
Theorem attributes_added_to_span :
  forall (kind : trace.SpanKind) (options : list Option)
         (ctx : context.Context) (req : Any) (s : State),
  exists ctx' span s1,
    prologue kind (configure options) ctx s = (Return (ctx', span), s1)
    /\ attributesOf span (calls s1) =
         attributesOf span (calls s) ++ snd (commonAtrributes ctx)
    /\ forall next : Method,
        attributesOf span
          (calls (snd (interceptor kind options next ctx req s))) =
          attributesOf span (calls (snd (next ctx' req s1))) ++
          match fst (next ctx' req s1) with
          | Return (_, err) => getTwirpErrorAttributes err
          | Panic _ => []
          end.
Proof.
  intros kind options ctx req s.
  destruct (prologue_returns kind (configure options) ctx s)
    as [tp [_ Hpro]].
  cbv zeta in Hpro.
  match type of Hpro with
  | _ = (Return (?c, ?sp), ?s1) => exists c, sp, s1
  end.
  split; [exact Hpro |]. split.
  - cbn [calls]. rewrite attributesOf_app. cbn.
    rewrite span_eqb_refl, !app_nil_r. reflexivity.
  - intros next. rewrite (interceptor_run _ _ next _ req _ _ _ _ Hpro).
    cbn [snd extend calls].
    rewrite attributesOf_app, attributesOf_afterNext. reflexivity.
Qed.

(** The attributes the intercepted method gives a span, base
    attributes and classification, have pairwise distinct keys and
    string values; they are seven for a nil error and eight
    otherwise. *)
Theorem span_attribute_keys_distinct :
  forall (ctx : context.Context) (err : error),
    let attributes :=
      snd (commonAtrributes ctx) ++ getTwirpErrorAttributes err in
    NoDup (keys attributes)
    /\ forallb (fun kv => attribute.isString (attribute.value kv))
         attributes = true
    /\ length attributes = match err with None => 7 | Some _ => 8 end.
Proof.
  intros ctx err attributes. subst attributes.
  unfold commonAtrributes, twirp.PackageName, twirp.ServiceName,
    twirp.MethodName.
  destruct (context.packageName ctx), (context.serviceName ctx),
    (context.methodName ctx), err as [e |];
    (split; [| split; reflexivity]);
    cbn; repeat constructor; cbn; intuition discriminate.
Qed.

(** What [requireAttribute] accepts on the attributes of a span: for
    the keys of the package, the service, the method and the error
    code exactly the value the call has for them, and for the key of
    the error message exactly the message of the classification, or
    nothing at all when the error is nil. *)
Theorem requireAttribute_on_span_attributes :
  forall (ctx : context.Context) (err : error) (v : string),
    let attributes :=
      snd (commonAtrributes ctx) ++ getTwirpErrorAttributes err in
    requireAttribute attributes PackageNameKey v =
      String.eqb v (fst (twirp.PackageName ctx))
    /\ requireAttribute attributes ServiceNameKey v =
         String.eqb v (fst (twirp.ServiceName ctx))
    /\ requireAttribute attributes MethodNameKey v =
         String.eqb v (fst (twirp.MethodName ctx))
    /\ requireAttribute attributes ErrorCodeKey v =
         String.eqb v match err with
                      | None => "ok"
                      | Some e => twirp.Code (classify e)
                      end
    /\ requireAttribute attributes ErrorMessageKey v =
         match err with
         | None => false
         | Some e => String.eqb v (twirp.Msg (classify e))
         end.
Proof.
  intros ctx err v attributes. subst attributes.
  unfold commonAtrributes, twirp.PackageName, twirp.ServiceName,
    twirp.MethodName.
  destruct (context.packageName ctx), (context.serviceName ctx),
    (context.methodName ctx), err as [e |];
    repeat apply conj; reflexivity.
Qed.

(** ** The span name and the RPC attributes *)

Lemma string_append_assoc (a b c : string) :
  ((a ++ b) ++ c = a ++ (b ++ c))%string.
Proof.
  induction a as [| ch a IH]; cbn; [reflexivity |].
  rewrite IH. reflexivity.
Qed.

Lemma string_length_append (a b : string) :
  String.length (a ++ b)%string = String.length a + String.length b.
Proof.
  induction a as [| ch a IH]; cbn; [reflexivity |].
  rewrite IH. reflexivity.
Qed.

(** The span name is the value of the RPC service attribute, "/", and
    the value of the RPC method attribute; it is never empty, being
    two characters longer than the three names together. *)
Theorem span_name_from_rpc_attributes :
  forall (ctx : context.Context) (service method : string),
    requireAttribute (snd (commonAtrributes ctx)) semconv.RPCServiceKey
      service = true ->
    requireAttribute (snd (commonAtrributes ctx)) semconv.RPCMethodKey
      method = true ->
    fst (commonAtrributes ctx) = (service ++ "/" ++ method)%string
    /\ String.length (fst (commonAtrributes ctx)) =
         String.length (fst (twirp.PackageName ctx))
         + String.length (fst (twirp.ServiceName ctx))
         + String.length (fst (twirp.MethodName ctx)) + 2.
Proof.
  intros ctx service method.
  unfold commonAtrributes, twirp.PackageName, twirp.ServiceName,
    twirp.MethodName.
  destruct (twirp.lookup (context.packageName ctx)) as [packageName ok1].
  destruct (twirp.lookup (context.serviceName ctx)) as [serviceName ok2].
  destruct (twirp.lookup (context.methodName ctx)) as [methodName ok3].
  cbn. intros Hservice Hmethod.
  apply String.eqb_eq in Hservice. apply String.eqb_eq in Hmethod.
  subst service method. split.
  - rewrite !string_append_assoc. reflexivity.
  - repeat (rewrite string_length_append; cbn [String.length]).
    lia.
Qed.

(** ** Interceptors in a chain *)


(** ** The test helper *)

(** [requireAttribute] looks at the first attribute with the key and
    at no other: attributes with the same key that follow it are not
    compared.  Without an attribute of the key it fails, whatever the
    expected value. *)
Theorem requireAttribute_first_match :
  (forall (pre : list attribute.KeyValue) (a : attribute.KeyValue)
          (post : list attribute.KeyValue) (k : attribute.Key)
          (v : string),
      existsb (String.eqb k) (keys pre) = false ->
      attribute.key a = k ->
      requireAttribute (pre ++ a :: post) k v =
        String.eqb v (attribute.AsString (attribute.value a)))
  /\ (forall (attributes : list attribute.KeyValue) (k : attribute.Key)
             (v : string),
        existsb (String.eqb k) (keys attributes) = false ->
        requireAttribute attributes k v = false).
Proof.
  split.
  - intros pre a post k v Hpre Hkey.
    induction pre as [| b pre IH]; cbn [app requireAttribute].
    + rewrite Hkey, String.eqb_refl. reflexivity.
    + cbn in Hpre. apply orb_false_elim in Hpre as [Hb Hrest].
      rewrite String.eqb_sym, Hb. cbn [negb]. apply IH. exact Hrest.
  - intros attributes k v Hnone.
    induction attributes as [| b rest IH]; [reflexivity |].
    cbn in Hnone. apply orb_false_elim in Hnone as [Hb Hrest].
    cbn [requireAttribute]. rewrite String.eqb_sym, Hb. cbn [negb].
    apply IH. exact Hrest.
Qed.

End Go.

Arguments Return {Any A} a.
Arguments Panic {Any A} v.

(** ** The theorems at the example call *)

Lemma unclassified_error_attributes_witness :
  assertTwirpError (Plain "testing") = None
  /\ twirp.Code (twirpInternalErrorWith (Some (Plain "testing"))) =
       twirp.Internal
  /\ getTwirpErrorAttributes twirpInternalErrorWith
       (Some (Plain "testing")) =
       [ attribute.KV "twirp.error_code" (attribute.StringValue "internal");
         attribute.KV "twirp.error_message"
           (attribute.StringValue "testing") ].
Proof.
  split; [reflexivity |]. split; [reflexivity |].
  apply (unclassified_error_attributes twirpInternalErrorWith
           (Plain "testing")); reflexivity.
Defined.

Lemma interceptor_returns_result_of_next_witness :
  let next : Method string :=
    fun _ _ s => (Return ("", Some (Plain "testing")), s) in
  fst (interceptor string twirpInternalErrorWith trace.SpanKindServer []
         next example.ctx "size" example.initial) =
    Return ("", Some (Plain "testing")).
Proof.
  intros next.
  destruct (interceptor_returns_result_of_next string
              twirpInternalErrorWith trace.SpanKindServer []
              example.ctx "size" example.initial)
    as [ctx' [span [s1 [_ [_ Hret]]]]].
  apply (Hret next "" (Some (Plain "testing")) s1).
  reflexivity.
Defined.

Lemma status_set_iff_error_witness :
  let next : Method string :=
    fun _ _ s => (Return ("", Some (Plain "testing")), s) in
  let ctx' := context.ContextWithSpan example.ctx example.span in
  prologue string trace.SpanKindServer (configure []) example.ctx
    example.initial = (Return (ctx', example.span), example.started)
  /\ next ctx' "size" example.started =
       (Return ("", Some (Plain "testing")), example.started)
  /\ exists tail,
       calls (snd (interceptor string twirpInternalErrorWith
                     trace.SpanKindServer [] next example.ctx "size"
                     example.initial)) =
         calls example.started ++ tail
       /\ In (StatusSet example.span codes.Error "testing") tail.
Proof.
  intros next ctx'.
  assert (Hpro : prologue string trace.SpanKindServer (configure [])
                   example.ctx example.initial =
                 (Return (ctx', example.span), example.started))
    by reflexivity.
  assert (Hnext : next ctx' "size" example.started =
                  (Return ("", Some (Plain "testing")), example.started))
    by reflexivity.
  split; [exact Hpro |]. split; [exact Hnext |].
  destruct (status_set_iff_error string twirpInternalErrorWith
              trace.SpanKindServer [] next example.ctx "size"
              example.initial ctx' example.span example.started
              "" (Some (Plain "testing")) example.started Hpro Hnext)
    as [_ [tail [Hcalls [Hiff _]]]].
  exists tail. split; [exact Hcalls |].
  apply Hiff. exists (Plain "testing"). repeat split.
Defined.

Lemma span_ended_exactly_once_witness :
  let next : Method string := fun _ _ s => (Panic "boom", s) in
  fst (interceptor string twirpInternalErrorWith trace.SpanKindServer []
         next example.ctx "size" example.initial) = Panic "boom".
Proof.
  intros next.
  destruct (span_ended_exactly_once string twirpInternalErrorWith
              trace.SpanKindServer [] example.ctx "size" example.initial)
    as [ctx' [span [s1 [_ [_ Hnext]]]]].
  destruct (Hnext next) as [tail [_ [_ [_ Hpanic]]]].
  apply (Hpanic "boom"). reflexivity.
Defined.

Lemma tracer_provider_resolution_witness :
  let ctx := context.ContextWithSpan example.ctx example.parent in
  let ctx' := context.ContextWithSpan example.ctx example.invalidParent in
  (context.currentSpan ctx = Some example.parent
   /\ trace.IsValid example.parent = true
   /\ getTracerProvider string {| provider := None |} ctx example.initial =
        (Return example.parentProvider, example.initial))
  /\ (context.currentSpan ctx' = Some example.invalidParent
      /\ trace.IsValid example.invalidParent = false
      /\ getTracerProvider string {| provider := None |} ctx'
           example.initial = (Return example.provider, example.initial))
  /\ (context.currentSpan example.ctx = None
      /\ getTracerProvider string {| provider := None |} example.ctx
           example.initial = (Return example.provider, example.initial)).
Proof.
  intros ctx ctx'.
  destruct (tracer_provider_resolution string)
    as [_ [Hvalid [Hinvalid [Habsent _]]]].
  split; [| split].
  - split; [reflexivity |]. split; [reflexivity |].
    apply (Hvalid ctx example.parent example.initial); reflexivity.
  - split; [reflexivity |]. split; [reflexivity |].
    apply (Hinvalid ctx' example.invalidParent example.initial);
      reflexivity.
  - split; [reflexivity |].
    apply (Habsent example.ctx example.initial); reflexivity.
Defined.

Lemma calls_after_return_witness :
  let next : Method string := fun _ _ s => (Return ("hat", None), s) in
  let ctx' := context.ContextWithSpan example.ctx example.span in
  prologue string trace.SpanKindServer (configure []) example.ctx
    example.initial = (Return (ctx', example.span), example.started)
  /\ next ctx' "size" example.started =
       (Return ("hat", None), example.started)
  /\ calls (snd (interceptor string twirpInternalErrorWith
                   trace.SpanKindServer [] next example.ctx "size"
                   example.initial)) =
       calls example.started ++
       [ AttributesSet example.span
           [ attribute.KV "twirp.error_code" (attribute.StringValue "ok") ];
         Ended example.span ].
Proof.
  intros next ctx'.
  assert (Hpro : prologue string trace.SpanKindServer (configure [])
                   example.ctx example.initial =
                 (Return (ctx', example.span), example.started))
    by reflexivity.
  assert (Hnext : next ctx' "size" example.started =
                  (Return ("hat", None), example.started))
    by reflexivity.
  split; [exact Hpro |]. split; [exact Hnext |].
  rewrite (calls_after_return string twirpInternalErrorWith
             trace.SpanKindServer [] next example.ctx "size"
             example.initial ctx' example.span example.started
             "hat" None example.started Hpro Hnext).
  reflexivity.
Defined.

Lemma global_provider_preserved_witness :
  let next : Method string := fun _ _ s => (Return ("hat", None), s) in
  (forall ctx req s,
      globalTracerProvider (snd (next ctx req s)) = globalTracerProvider s)
  /\ globalTracerProvider
       (snd (interceptor string twirpInternalErrorWith
               trace.SpanKindClient [] next example.ctx "size"
               example.initial)) = example.provider.
Proof.
  intros next.
  assert (Hnext : forall ctx req s,
             globalTracerProvider (snd (next ctx req s)) =
               globalTracerProvider s)
    by (intros; reflexivity).
  split; [exact Hnext |].
  apply (global_provider_preserved string twirpInternalErrorWith
           trace.SpanKindClient [] next Hnext example.ctx "size"
           example.initial).
Defined.

Lemma span_name_from_rpc_attributes_witness :
  requireAttribute (snd (commonAtrributes example.ctx))
    semconv.RPCServiceKey "twitch.twirp.example.Haberdasher" = true
  /\ requireAttribute (snd (commonAtrributes example.ctx))
       semconv.RPCMethodKey "MakeHat" = true
  /\ fst (commonAtrributes example.ctx) =
       "twitch.twirp.example.Haberdasher/MakeHat".
Proof.
  split; [reflexivity |]. split; [reflexivity |].
  apply (span_name_from_rpc_attributes example.ctx
           "twitch.twirp.example.Haberdasher" "MakeHat");
    reflexivity.
Defined.

Lemma requireAttribute_first_match_witness :
  let pre := [ attribute.KV "twirp.package" (attribute.StringValue "p") ] in
  let a := attribute.KV "twirp.error_code" (attribute.StringValue "ok") in
  let post :=
    [ attribute.KV "twirp.error_code" (attribute.StringValue "internal") ] in
  existsb (String.eqb "twirp.error_code") (keys pre) = false
  /\ attribute.key a = "twirp.error_code"
  /\ requireAttribute (pre ++ a :: post) "twirp.error_code" "ok" = true
  /\ existsb (String.eqb "twirp.error_message") (keys (pre ++ a :: post)) =
       false
  /\ requireAttribute (pre ++ a :: post) "twirp.error_message" "" = false.
Proof.
  intros pre a post.
  destruct requireAttribute_first_match as [Hfirst Hnone].
  split; [reflexivity |]. split; [reflexivity |]. split; [| split].
  - rewrite (Hfirst pre a post "twirp.error_code" "ok");
      reflexivity.
  - reflexivity.
  - apply (Hnone (pre ++ a :: post) "twirp.error_message" "").
    reflexivity.
Defined.
